(** * Port-security reconciliation of the EdgeCenter Terraform provider

    A shallow embedding of the instance_port_security resource
    (edgecenter/utils_port_security.go and the CRUD callbacks
    resourceInstancePortSecurity{Create,Read,Update,Delete}) together with
    the properties of its security-group reconciliation.

    The callbacks are orchestration code over a cloud client.  The client is
    an interface here ([CloudClient]): every theorem that quantifies over the
    client holds whatever the cloud answers, including a cloud that changes
    between two calls.  A small synchronous cloud ([Sim]) instantiates the
    interface where a concrete run is needed. *)

From stdpp Require Import gmap strings list.

Open Scope string_scope.

(** ** Values exchanged with the cloud client *)

(** edgecloud.SecurityGroup, restricted to the two fields the provider reads. *)
Record SecurityGroup := { ID : string; Name : string }.

(** What utilV2.InstanceNetworkPortByID returns: the groups attached to a port. *)
Record InstancePort := { SecurityGroups : list SecurityGroup }.

(** What utilV2.InstanceNetworkInterfaceByID returns. *)
Record InstancePortInterface := { PortSecurityEnabled : bool }.

(** ** Go errors and Terraform diagnostics *)

(** A Go [error] value seen by the provider: either an error produced by the
    cloud client, or the provider's own sentinel (a package-level variable, so
    it is told apart from every client error by identity). *)
Inductive error :=
| ApiError (msg : string)
| InstancePortSecNotImplementedErr.

(** err.Error() *)
Definition Error (e : error) : string :=
  match e with
  | ApiError msg => msg
  | InstancePortSecNotImplementedErr =>
      "instance_port_security are not impelemented yet"
  end.

Inductive Severity := SeverityError | SeverityWarning.

Record Diagnostic := { severity : Severity; Summary : string }.

Definition is_error (dg : Diagnostic) : bool :=
  match severity dg with SeverityError => true | SeverityWarning => false end.

(** diag.Diagnostics.HasError *)
Definition HasError (diags : list Diagnostic) : bool := existsb is_error diags.

(** diag.FromErr *)
Definition FromErr (e : error) : list Diagnostic :=
  [ {| severity := SeverityError; Summary := Error e |} ].

(** ** schema.ResourceData

    The fields of the resource the callbacks read.  For the three configurable
    attributes both layers are kept: the prior state ([_old], what
    d.GetChange returns first) and the planned value (what d.Get returns).
    all_security_group_ids is computed: d.Get yields what the last Read stored.
    A *schema.Set of strings is a finite set of strings. *)
Record ResourceData := {
  Id : string;
  PortID : string;
  InstanceID : string;
  PortSecurityDisabled_old : bool;
  PortSecurityDisabled : bool;
  Enforce_old : bool;
  Enforce : bool;
  SecurityGroupIDs_old : gset string;
  SecurityGroupIDs : gset string;
  AllSecurityGroupIDs : gset string
}.

(** d.GetOk on a bool attribute: ok exactly when the value is not the zero
    value. *)
Definition GetOk_bool (v : bool) : bool * bool := (v, v).

(** d.GetOk on a set attribute: ok exactly when the set is not empty. *)
Definition GetOk_set (s : gset string) : gset string * bool :=
  (s, negb (size s =? 0)%nat).

(** d.HasChange *)
Definition HasChange_PortSecurityDisabled (d : ResourceData) : bool :=
  negb (Bool.eqb (PortSecurityDisabled_old d) (PortSecurityDisabled d)).

Definition HasChange_Enforce (d : ResourceData) : bool :=
  negb (Bool.eqb (Enforce_old d) (Enforce d)).

Definition HasChange_SecurityGroupIDs (d : ResourceData) : bool :=
  negb (bool_decide (SecurityGroupIDs_old d = SecurityGroupIDs d)).

(** d.SetId and d.Set *)
Definition SetId (id : string) (d : ResourceData) : ResourceData :=
  {| Id := id; PortID := PortID d; InstanceID := InstanceID d;
     PortSecurityDisabled_old := PortSecurityDisabled_old d;
     PortSecurityDisabled := PortSecurityDisabled d;
     Enforce_old := Enforce_old d; Enforce := Enforce d;
     SecurityGroupIDs_old := SecurityGroupIDs_old d;
     SecurityGroupIDs := SecurityGroupIDs d;
     AllSecurityGroupIDs := AllSecurityGroupIDs d |}.

Definition Set_PortSecurityDisabled (v : bool) (d : ResourceData) : ResourceData :=
  {| Id := Id d; PortID := PortID d; InstanceID := InstanceID d;
     PortSecurityDisabled_old := PortSecurityDisabled_old d;
     PortSecurityDisabled := v;
     Enforce_old := Enforce_old d; Enforce := Enforce d;
     SecurityGroupIDs_old := SecurityGroupIDs_old d;
     SecurityGroupIDs := SecurityGroupIDs d;
     AllSecurityGroupIDs := AllSecurityGroupIDs d |}.

Definition Set_AllSecurityGroupIDs (v : gset string) (d : ResourceData) : ResourceData :=
  {| Id := Id d; PortID := PortID d; InstanceID := InstanceID d;
     PortSecurityDisabled_old := PortSecurityDisabled_old d;
     PortSecurityDisabled := PortSecurityDisabled d;
     Enforce_old := Enforce_old d; Enforce := Enforce d;
     SecurityGroupIDs_old := SecurityGroupIDs_old d;
     SecurityGroupIDs := SecurityGroupIDs d;
     AllSecurityGroupIDs := v |}.

(** ** validatePortSecAttrs (utils_port_security.go) *)

Definition PortSecurityDisabledField : string := "port_security_disabled".

Definition dquote : string := String (Ascii.ascii_of_nat 34) EmptyString.

Section Validation.

(** The name of the security-group attribute is a constant of the provider's
    schema definitions; only the text of the diagnostic depends on it. *)
Variable SecurityGroupIDsField : string.

Definition validatePortSecAttrs (d : ResourceData) : list Diagnostic :=
  let diags := [] in
  let isPortSecDisabled :=
    let '(v, ok) := GetOk_bool (PortSecurityDisabled d) in
    if ok then v else false in
  let isSecGroupExists := snd (GetOk_set (SecurityGroupIDs d)) in
  if isPortSecDisabled && isSecGroupExists then
    diags ++
    [ {| severity := SeverityError;
         Summary := "if attribute " ++ dquote ++ PortSecurityDisabledField
                    ++ dquote ++ " set true, you can't set " ++ dquote
                    ++ SecurityGroupIDsField ++ dquote ++ " attribute" |} ]
  else diags.

End Validation.

(** ** The cloud client

    The calls of edgecentercloud-go the callbacks make.  A call takes the
    cloud to a new cloud and answers with a value or with an error text.
    InitCloudClient builds the client from the provider configuration and the
    project and region attributes, which the cloud state stands for here. *)
Class CloudClient (C : Type) := {
  InitCloudClient : C -> (string + unit) * C;
  InstanceNetworkInterfaceByID :
    string -> string -> C -> (string + InstancePortInterface) * C;
  InstanceNetworkPortByID :
    string -> string -> C -> (string + InstancePort) * C;
  SecurityGroupListByIDs :
    list string -> C -> (string + list SecurityGroup) * C;
  DisablePortSecurity : string -> C -> (string + unit) * C;
  EnablePortSecurity : string -> C -> (string + unit) * C;
  SecurityGroupAssign :
    string -> string -> list string -> C -> (string + unit) * C;
  SecurityGroupUnAssign :
    string -> string -> list string -> C -> (string + unit) * C
}.

(** The requests sent to the cloud about the port. *)
Inductive Call :=
| CallInterfaceByID (instanceID portID : string)
| CallPortByID (instanceID portID : string)
| CallListByIDs (ids : list string)
| CallDisablePortSecurity (portID : string)
| CallEnablePortSecurity (portID : string)
| CallAssign (instanceID portID : string) (names : list string)
| CallUnAssign (instanceID portID : string) (names : list string).

(** A request together with its outcome: [true] when the cloud answered,
    [false] when it returned an error. *)
Definition Request : Type := Call * bool.

Definition is_attach (r : Request) : bool :=
  match r.1 with CallAssign _ _ _ => true | _ => false end.

Definition is_detach (r : Request) : bool :=
  match r.1 with CallUnAssign _ _ _ => true | _ => false end.

Definition is_toggle (r : Request) : bool :=
  match r.1 with
  | CallDisablePortSecurity _ | CallEnablePortSecurity _ => true
  | _ => false
  end.

Definition is_failed_lookup (r : Request) : bool :=
  match r with (CallListByIDs _, false) => true | _ => false end.

Definition answered {A} (r : string + A) : bool :=
  match r with inl _ => false | inr _ => true end.

(** ** The world a callback runs in, and the monad of callbacks *)

Record World (C D : Type) := mkWorld {
  cloud : C;               (* the cloud behind the client *)
  rd : D;                  (* the resource data d points to *)
  calls : list Request     (* requests sent so far, oldest first *)
}.
Arguments mkWorld {C D}.
Arguments cloud {C D}.
Arguments rd {C D}.
Arguments calls {C D}.

(** A computation that reads and updates the world and either returns early
    with an [E] (Go's [return err], [return diags]) or yields an [A]. *)
Definition M (C D E A : Type) : Type := World C D -> (E + A) * World C D.

Definition ret {C D E A} (a : A) : M C D E A := fun w => (inr a, w).

Definition throw {C D E A} (e : E) : M C D E A := fun w => (inl e, w).

Definition bind {C D E A B} (m : M C D E A) (k : A -> M C D E B) : M C D E B :=
  fun w =>
    match m w with
    | (inl e, w') => (inl e, w')
    | (inr a, w') => k a w'
    end.

Declare Scope go_scope.
Delimit Scope go_scope with go.
Notation "x <- m ;; k" := (bind m (fun x => k))
  (at level 100, m at next level, right associativity) : go_scope.
Notation "m ;; k" := (bind m (fun _ => k))
  (at level 100, right associativity) : go_scope.

(** [if err != nil { return diag.FromErr(err) }] *)
Definition orFromErr {C D A} (m : M C D error A) : M C D (list Diagnostic) A :=
  fun w =>
    match m w with
    | (inl e, w') => (inl (FromErr e), w')
    | (inr a, w') => (inr a, w')
    end.

(** A callback starts with nothing sent yet. *)
Definition start {C D} (c : C) (d : D) : World C D := mkWorld c d [].

(** The diagnostics a callback hands back to Terraform, and the world after. *)
Definition run {C D} (m : M C D (list Diagnostic) (list Diagnostic)) (w : World C D)
  : list Diagnostic * World C D :=
  match m w with
  | (inl diags, w') => (diags, w')
  | (inr diags, w') => (diags, w')
  end.

(** The requests a callback sends when started on cloud [c] with data [d]. *)
Definition trace {C D} (m : M C D (list Diagnostic) (list Diagnostic)) (c : C) (d : D)
  : list Request :=
  calls (run m (start c d)).2.

(** The diagnostics it returns. *)
Definition outcome {C D} (m : M C D (list Diagnostic) (list Diagnostic)) (c : C) (d : D)
  : list Diagnostic :=
  (run m (start c d)).1.

Section Client.

Context {C D : Type} `{client : CloudClient C}.

Local Open Scope go_scope.

(** Reading and writing through the pointer [d]. *)
Definition getData {E} : M C D E D := fun w => (inr (rd w), w).

Definition setData {E} (f : D -> D) : M C D E unit :=
  fun w => (inr tt, mkWorld (cloud w) (f (rd w)) (calls w)).

(** One request to the cloud: the request is recorded with its outcome, the
    cloud moves on, and a failure comes back as a Go error. *)
Definition request {A} (c : Call) (op : C -> (string + A) * C) : M C D error A :=
  fun w =>
    let '(r, cl) := op (cloud w) in
    (match r with inl msg => inl (ApiError msg) | inr a => inr a end,
     mkWorld cl (rd w) (calls w ++ [(c, answered r)])).

(** Building the client is not a request about the port: nothing is recorded. *)
Definition initCloudClient : M C D error unit :=
  fun w =>
    let '(r, cl) := InitCloudClient (cloud w) in
    (match r with inl msg => inl (ApiError msg) | inr a => inr a end,
     mkWorld cl (rd w) (calls w)).

Definition instanceNetworkInterfaceByID (instanceID portID : string) :=
  request (CallInterfaceByID instanceID portID)
          (InstanceNetworkInterfaceByID instanceID portID).

Definition instanceNetworkPortByID (instanceID portID : string) :=
  request (CallPortByID instanceID portID)
          (InstanceNetworkPortByID instanceID portID).

Definition securityGroupListByIDs (ids : list string) :=
  request (CallListByIDs ids) (SecurityGroupListByIDs ids).

Definition disablePortSecurity (portID : string) :=
  request (CallDisablePortSecurity portID) (DisablePortSecurity portID).

Definition enablePortSecurity (portID : string) :=
  request (CallEnablePortSecurity portID) (EnablePortSecurity portID).

Definition securityGroupAssign (instanceID portID : string) (names : list string) :=
  request (CallAssign instanceID portID names)
          (SecurityGroupAssign instanceID portID names).

Definition securityGroupUnAssign (instanceID portID : string) (names : list string) :=
  request (CallUnAssign instanceID portID names)
          (SecurityGroupUnAssign instanceID portID names).

(** Modelled from the spec: removeSecurityGroupsFromInstancePort is a helper
    of the provider that the callbacks call; its body is missing.  The spec: for
    toRemove, resolve each ID to a name via a lookup against the external
    group-listing API, then issue a single detach call carrying all resolved
    names for that port. *)
Definition removeSecurityGroupsFromInstancePort
    (instanceID portID : string) (sgIDs : list string) : M C D error unit :=
  filteredSGs <- securityGroupListByIDs sgIDs ;;
  securityGroupUnAssign instanceID portID (map Name filteredSGs).

(** Modelled from the spec: AssignSecurityGroupsToInstancePort, as above.  The
    spec: for toAdd, resolve similarly and issue a single attach call. *)
Definition AssignSecurityGroupsToInstancePort
    (instanceID portID : string) (sgIDs : list string) : M C D error unit :=
  filteredSGs <- securityGroupListByIDs sgIDs ;;
  securityGroupAssign instanceID portID (map Name filteredSGs).

(** The switch on the desired and the observed flag, written out in Create
    and in Update alike. *)
Definition togglePortSecurity (portSecurityDisabled : bool)
    (instanceIfacePort : InstancePortInterface) (portID : string)
  : M C D (list Diagnostic) unit :=
  if portSecurityDisabled && PortSecurityEnabled instanceIfacePort then
    orFromErr (disablePortSecurity portID)
  else if negb portSecurityDisabled && negb (PortSecurityEnabled instanceIfacePort) then
    orFromErr (enablePortSecurity portID)
  else ret tt.

End Client.

Section Provider.

Context {C : Type} `{client : CloudClient C}.
Variable SecurityGroupIDsField : string.

Local Open Scope go_scope.

(** ** checkPortSecurityChangesIsApplied (utils_port_security.go) *)
Definition checkPortSecurityChangesIsApplied : M C ResourceData error unit :=
  d <- getData ;;
  let portID := PortID d in
  let instanceID := InstanceID d in
  let portSecurityDisabled := PortSecurityDisabled d in
  let enforce := Enforce d in
  let sgsSet := SecurityGroupIDs d in
  instancePort <- instanceNetworkPortByID instanceID portID ;;
  instanceIfacePort <- instanceNetworkInterfaceByID instanceID portID ;;
  let sgsListFromAPI := map ID (SecurityGroups instancePort) in
  let sgsSetFromAPI : gset string := list_to_set sgsListFromAPI in
  let intersectionSet := sgsSetFromAPI ∩ sgsSet in
  let intersectionDiff := intersectionSet ∖ sgsSet in
  if negb (size intersectionDiff =? 0)%nat then
    throw InstancePortSecNotImplementedErr
  else if enforce && negb (size sgsSet =? size intersectionSet)%nat then
    throw InstancePortSecNotImplementedErr
  else if Bool.eqb (PortSecurityEnabled instanceIfacePort) portSecurityDisabled then
    throw InstancePortSecNotImplementedErr
  else ret tt.

(** ** resourceInstancePortSecurityRead *)
Definition resourceInstancePortSecurityRead
  : M C ResourceData (list Diagnostic) (list Diagnostic) :=
  let diags : list Diagnostic := [] in
  orFromErr initCloudClient ;;
  d <- getData ;;
  let portID := PortID d in
  let instanceID := InstanceID d in
  instanceIface <- orFromErr (instanceNetworkInterfaceByID instanceID portID) ;;
  instancePort <- orFromErr (instanceNetworkPortByID instanceID portID) ;;
  setData (Set_PortSecurityDisabled (negb (PortSecurityEnabled instanceIface))) ;;
  (if PortSecurityEnabled instanceIface then
     let sgIDs := map ID (SecurityGroups instancePort) in
     setData (Set_AllSecurityGroupIDs (list_to_set sgIDs))
   else ret tt) ;;
  ret diags.

(** ** resourceInstancePortSecurityCreate *)
Definition resourceInstancePortSecurityCreate
  : M C ResourceData (list Diagnostic) (list Diagnostic) :=
  orFromErr initCloudClient ;;
  d <- getData ;;
  let diags := validatePortSecAttrs SecurityGroupIDsField d in
  if HasError diags then throw diags else
  let portID := PortID d in
  let instanceID := InstanceID d in
  instanceIfacePort <- orFromErr (instanceNetworkInterfaceByID instanceID portID) ;;
  let portSecurityDisabled := PortSecurityDisabled d in
  togglePortSecurity portSecurityDisabled instanceIfacePort portID ;;
  if portSecurityDisabled then
    setData (SetId portID) ;;
    resourceInstancePortSecurityRead
  else
    let enforce := Enforce d in
    let '(sgsRaw, sgsRawOk) := GetOk_set (SecurityGroupIDs d) in
    (if enforce && sgsRawOk then
       instancePort <- orFromErr (instanceNetworkPortByID instanceID portID) ;;
       if negb (length (SecurityGroups instancePort) =? 0)%nat then
         let sgsToRemove := map ID (SecurityGroups instancePort) in
         orFromErr (removeSecurityGroupsFromInstancePort instanceID portID sgsToRemove)
       else ret tt
     else ret tt) ;;
    (if sgsRawOk then
       let sgsSet := sgsRaw in
       let sgsList := elements sgsSet in
       orFromErr (AssignSecurityGroupsToInstancePort instanceID portID sgsList)
     else ret tt) ;;
    setData (SetId portID) ;;
    resourceInstancePortSecurityRead.

(** The two lists Update computes before it calls the helpers
    (sgsToRemoveList and sgsToAssignList in the source). *)
Definition sgsToRemoveList (d : ResourceData) : list string :=
  let sgsOldSet := SecurityGroupIDs_old d in
  let sgsNewSet := SecurityGroupIDs d in
  match Enforce d with
  | true =>
      let allSGIDs := AllSecurityGroupIDs d in
      elements (allSGIDs ∖ sgsNewSet)
  | false => elements (sgsOldSet ∖ sgsNewSet)
  end.

Definition sgsToAssignList (d : ResourceData) : list string :=
  let sgsOldSet := SecurityGroupIDs_old d in
  let sgsNewSet := SecurityGroupIDs d in
  elements (sgsNewSet ∖ sgsOldSet).

(** ** resourceInstancePortSecurityUpdate *)
Definition resourceInstancePortSecurityUpdate
  : M C ResourceData (list Diagnostic) (list Diagnostic) :=
  orFromErr initCloudClient ;;
  d <- getData ;;
  let diags := validatePortSecAttrs SecurityGroupIDsField d in
  if HasError diags then throw diags else
  let portID := PortID d in
  let instanceID := InstanceID d in
  let portSecurityDisabled := PortSecurityDisabled d in
  (if HasChange_PortSecurityDisabled d then
     instanceIfacePort <- orFromErr (instanceNetworkInterfaceByID instanceID portID) ;;
     togglePortSecurity portSecurityDisabled instanceIfacePort portID
   else ret tt) ;;
  if portSecurityDisabled then
    resourceInstancePortSecurityRead
  else
    (if HasChange_SecurityGroupIDs d || HasChange_Enforce d then
       orFromErr (removeSecurityGroupsFromInstancePort instanceID portID (sgsToRemoveList d)) ;;
       orFromErr (AssignSecurityGroupsToInstancePort instanceID portID (sgsToAssignList d))
     else ret tt) ;;
    orFromErr checkPortSecurityChangesIsApplied ;;
    resourceInstancePortSecurityRead.

(** ** resourceInstancePortSecurityDelete *)
Definition resourceInstancePortSecurityDelete
  : M C ResourceData (list Diagnostic) (list Diagnostic) :=
  let diags : list Diagnostic := [] in
  orFromErr initCloudClient ;;
  d <- getData ;;
  let portID := PortID d in
  let instanceID := InstanceID d in
  instanceIfacePort <- orFromErr (instanceNetworkInterfaceByID instanceID portID) ;;
  if negb (PortSecurityEnabled instanceIfacePort) then
    orFromErr (enablePortSecurity portID) ;;
    ret diags
  else
    let '(sgsRaw, ok) := GetOk_set (SecurityGroupIDs d) in
    if negb ok then ret diags else
    let sgsSet := sgsRaw in
    let sgsList := elements sgsSet in
    orFromErr (removeSecurityGroupsFromInstancePort instanceID portID sgsList) ;;
    ret diags.

End Provider.

(** ** The earlier revision of the resource

    Before the attributes became sets, security_group_ids and
    all_security_group_ids were lists and Create resolved and attached the
    groups itself, in one lookup and one attach request. *)
Module Legacy.

Record ResourceData := {
  Id : string;
  PortID : string;
  InstanceID : string;
  PortSecurityDisabled : bool;
  Enforce : bool;
  SecurityGroupIDs : list string;
  AllSecurityGroupIDs : list string
}.

(** d.GetOk on a list attribute: ok exactly when the list is not empty. *)
Definition GetOk_list (l : list string) : list string * bool :=
  (l, negb (length l =? 0)%nat).

Definition SetId (id : string) (d : ResourceData) : ResourceData :=
  {| Id := id; PortID := PortID d; InstanceID := InstanceID d;
     PortSecurityDisabled := PortSecurityDisabled d; Enforce := Enforce d;
     SecurityGroupIDs := SecurityGroupIDs d;
     AllSecurityGroupIDs := AllSecurityGroupIDs d |}.

Definition Set_PortSecurityDisabled (v : bool) (d : ResourceData) : ResourceData :=
  {| Id := Id d; PortID := PortID d; InstanceID := InstanceID d;
     PortSecurityDisabled := v; Enforce := Enforce d;
     SecurityGroupIDs := SecurityGroupIDs d;
     AllSecurityGroupIDs := AllSecurityGroupIDs d |}.

Definition Set_AllSecurityGroupIDs (v : list string) (d : ResourceData) : ResourceData :=
  {| Id := Id d; PortID := PortID d; InstanceID := InstanceID d;
     PortSecurityDisabled := PortSecurityDisabled d; Enforce := Enforce d;
     SecurityGroupIDs := SecurityGroupIDs d;
     AllSecurityGroupIDs := v |}.

(** diag.Errorf with the text of the source in front; what fmt prints for the
    wrapped error after it is taken to be its message. *)
Definition Errorf (text : string) (e : error) : list Diagnostic :=
  [ {| severity := SeverityError; Summary := text ++ Error e |} ].

Section Callbacks.

Context {C : Type} `{client : CloudClient C}.
Variable SecurityGroupIDsField : string.

Local Open Scope go_scope.

Definition orErrorf {A} (text : string) (m : M C ResourceData error A)
  : M C ResourceData (list Diagnostic) A :=
  fun w =>
    match m w with
    | (inl e, w') => (inl (Errorf text e), w')
    | (inr a, w') => (inr a, w')
    end.

Definition validatePortSecAttrs (d : ResourceData) : list Diagnostic :=
  let diags := [] in
  let isPortSecDisabled :=
    let '(v, ok) := GetOk_bool (PortSecurityDisabled d) in
    if ok then v else false in
  let isSecGroupExists := snd (GetOk_list (SecurityGroupIDs d)) in
  if isPortSecDisabled && isSecGroupExists then
    diags ++
    [ {| severity := SeverityError;
         Summary := "if attribute " ++ dquote ++ PortSecurityDisabledField
                    ++ dquote ++ " set true, you can't set " ++ dquote
                    ++ SecurityGroupIDsField ++ dquote ++ " attribute" |} ]
  else diags.

Definition resourceInstancePortSecurityRead
  : M C ResourceData (list Diagnostic) (list Diagnostic) :=
  let diags : list Diagnostic := [] in
  orFromErr initCloudClient ;;
  d <- getData ;;
  let portID := PortID d in
  let instanceID := InstanceID d in
  instanceIface <- orFromErr (instanceNetworkInterfaceByID instanceID portID) ;;
  instancePort <- orFromErr (instanceNetworkPortByID instanceID portID) ;;
  setData (Set_PortSecurityDisabled (negb (PortSecurityEnabled instanceIface))) ;;
  (if PortSecurityEnabled instanceIface then
     let sgIDs := map ID (SecurityGroups instancePort) in
     setData (Set_AllSecurityGroupIDs sgIDs)
   else ret tt) ;;
  ret diags.

Definition resourceInstancePortSecurityCreate
  : M C ResourceData (list Diagnostic) (list Diagnostic) :=
  orFromErr initCloudClient ;;
  d <- getData ;;
  let diags := validatePortSecAttrs d in
  if HasError diags then throw diags else
  let portID := PortID d in
  let instanceID := InstanceID d in
  instanceIfacePort <- orFromErr (instanceNetworkInterfaceByID instanceID portID) ;;
  let portSecurityDisabled := PortSecurityDisabled d in
  togglePortSecurity portSecurityDisabled instanceIfacePort portID ;;
  if portSecurityDisabled then
    setData (SetId portID) ;;
    resourceInstancePortSecurityRead
  else
    let enforce := Enforce d in
    sgsToApply <-
      (if negb enforce then
         instancePort <- orFromErr (instanceNetworkPortByID instanceID portID) ;;
         ret (map ID (SecurityGroups instancePort))
       else ret []) ;;
    let '(sgsRaw, ok) := GetOk_list (SecurityGroupIDs d) in
    let sgsToApply := if ok then (sgsToApply ++ sgsRaw)%list else sgsToApply in
    filteredSGs <- orFromErr (securityGroupListByIDs sgsToApply) ;;
    let sgsNames := map Name filteredSGs in
    orErrorf "cannot attach security group. Error: "
             (securityGroupAssign instanceID portID sgsNames) ;;
    setData (SetId portID) ;;
    resourceInstancePortSecurityRead.

(** resourceInstancePortSecurityDelete of the same revision.  The slice of IDs
    to unassign is made with the length of the configured list and then
    appended to: it starts with that many empty strings. *)
Definition resourceInstancePortSecurityDelete
  : M C ResourceData (list Diagnostic) (list Diagnostic) :=
  let diags : list Diagnostic := [] in
  orFromErr initCloudClient ;;
  d <- getData ;;
  let portID := PortID d in
  let instanceID := InstanceID d in
  instanceIfacePort <- orFromErr (instanceNetworkInterfaceByID instanceID portID) ;;
  if negb (PortSecurityEnabled instanceIfacePort) then
    orFromErr (enablePortSecurity portID) ;;
    ret diags
  else
    let '(sgsRaw, ok) := GetOk_list (SecurityGroupIDs d) in
    if negb ok then ret diags else
    let sgsList := sgsRaw in
    let sgsUnnasign := (replicate (length sgsList) EmptyString ++ sgsList)%list in
    filteredSGs <- orFromErr (securityGroupListByIDs sgsUnnasign) ;;
    let sgsNames := map Name filteredSGs in
    orFromErr (securityGroupUnAssign instanceID portID sgsNames) ;;
    ret diags.

End Callbacks.

End Legacy.

(** ** A synchronous cloud with one instance and one port

    The contract of the collaborator: listing groups by ID fails when an ID is
    unknown; attach and detach address groups by name, take effect at once,
    and accept groups already attached or already absent. *)
Module Sim.

Record Cloud := {
  catalog : list SecurityGroup;   (* the groups of the project *)
  instance : string;
  port : string;
  enabled : bool;                 (* port security of the port *)
  attached : list SecurityGroup   (* groups on the port *)
}.

Definition known (inst prt : string) (c : Cloud) : bool :=
  bool_decide (inst = instance c) && bool_decide (prt = port c).

Definition with_enabled (b : bool) (c : Cloud) : Cloud :=
  {| catalog := catalog c; instance := instance c; port := port c;
     enabled := b; attached := attached c |}.

Definition with_attached (l : list SecurityGroup) (c : Cloud) : Cloud :=
  {| catalog := catalog c; instance := instance c; port := port c;
     enabled := enabled c; attached := l |}.

Definition has_id (id : string) (g : SecurityGroup) : bool := bool_decide (ID g = id).

Definition interfaceByID (inst prt : string) (c : Cloud)
  : (string + InstancePortInterface) * Cloud :=
  if known inst prt c then (inr {| PortSecurityEnabled := enabled c |}, c)
  else (inl "port not found", c).

Definition portByID (inst prt : string) (c : Cloud)
  : (string + InstancePort) * Cloud :=
  if known inst prt c then (inr {| SecurityGroups := attached c |}, c)
  else (inl "port not found", c).

Definition listByIDs (ids : list string) (c : Cloud)
  : (string + list SecurityGroup) * Cloud :=
  if forallb (fun id => existsb (has_id id) (catalog c)) ids
  then (inr (filter (fun g => bool_decide (ID g ∈ ids)) (catalog c)), c)
  else (inl "security group not found", c).

Definition toggle (b : bool) (prt : string) (c : Cloud)
  : (string + unit) * Cloud :=
  if bool_decide (prt = port c) then (inr tt, with_enabled b c)
  else (inl "port not found", c).

Definition assign (inst prt : string) (names : list string) (c : Cloud)
  : (string + unit) * Cloud :=
  if known inst prt c then
    let fresh := filter (fun g => bool_decide (Name g ∈ names)
                                  && negb (existsb (has_id (ID g)) (attached c)))
                        (catalog c) in
    (inr tt, with_attached (attached c ++ fresh) c)
  else (inl "port not found", c).

Definition unassign (inst prt : string) (names : list string) (c : Cloud)
  : (string + unit) * Cloud :=
  if known inst prt c then
    (inr tt, with_attached (filter (fun g => negb (bool_decide (Name g ∈ names)))
                                   (attached c)) c)
  else (inl "port not found", c).

#[global] Instance client : CloudClient Cloud := {
  InitCloudClient := fun c => (inr tt, c);
  InstanceNetworkInterfaceByID := interfaceByID;
  InstanceNetworkPortByID := portByID;
  SecurityGroupListByIDs := listByIDs;
  DisablePortSecurity := toggle false;
  EnablePortSecurity := toggle true;
  SecurityGroupAssign := assign;
  SecurityGroupUnAssign := unassign
}.

(** The IDs of the groups on the port. *)
Definition observed (c : Cloud) : gset string := list_to_set (map ID (attached c)).

End Sim.

(** ** The name check of the S3 storage data source
    (dataSourceStorageS3, ValidateDiagFunc of the name attribute)

    regexp.MatchString on a pattern anchored at both ends is a match of the
    whole string; the patterns are matched by derivatives. *)
Module Regexp.

Inductive re :=
| Empty
| Eps
| Class (f : Ascii.ascii -> bool)
| Cat (r1 r2 : re)
| Alt (r1 r2 : re)
| Star (r : re).

Fixpoint nullable (r : re) : bool :=
  match r with
  | Empty => false
  | Eps => true
  | Class _ => false
  | Cat r1 r2 => nullable r1 && nullable r2
  | Alt r1 r2 => nullable r1 || nullable r2
  | Star _ => true
  end.

Fixpoint deriv (a : Ascii.ascii) (r : re) : re :=
  match r with
  | Empty => Empty
  | Eps => Empty
  | Class f => if f a then Eps else Empty
  | Cat r1 r2 =>
      if nullable r1 then Alt (Cat (deriv a r1) r2) (deriv a r2)
      else Cat (deriv a r1) r2
  | Alt r1 r2 => Alt (deriv a r1) (deriv a r2)
  | Star r1 => Cat (deriv a r1) (Star r1)
  end.

(** The whole of [s] matches [r]. *)
Fixpoint matches (r : re) (s : string) : bool :=
  match s with
  | EmptyString => nullable r
  | String a s' => matches (deriv a r) s'
  end.

(** r+ *)
Definition Plus (r : re) : re := Cat r (Star r).

End Regexp.

Definition between (lo hi : nat) (a : Ascii.ascii) : bool :=
  (lo <=? Ascii.nat_of_ascii a)%nat && (Ascii.nat_of_ascii a <=? hi)%nat.

(** \w of Go's regexp: an ASCII letter, a digit or the underscore. *)
Definition is_word (a : Ascii.ascii) : bool :=
  between 48 57 a || between 65 90 a || between 97 122 a || between 95 95 a.

(** [\w\-] *)
Definition is_name_char (a : Ascii.ascii) : bool :=
  is_word a || between 45 45 a.

(** ^[\w\-]+$ *)
Definition storageNamePattern : Regexp.re := Regexp.Plus (Regexp.Class is_name_char).

(** The ValidateDiagFunc of StorageSchemaName; len is the length in bytes. *)
Definition validateStorageName (storageName : string) : list Diagnostic :=
  if negb (Regexp.matches storageNamePattern storageName)
     || (255 <? String.length storageName)%nat
  then [ {| severity := SeverityError;
            Summary := "storage name can't be empty and can have only letters, numbers, dashes and underscores, it also should be less than 256 symbols" |} ]
  else [].

(** ** Vocabulary of the properties *)

Definition is_lookup (r : Request) : bool :=
  match r.1 with CallListByIDs _ => true | _ => false end.

Definition is_read (r : Request) : bool :=
  match r.1 with CallInterfaceByID _ _ | CallPortByID _ _ => true | _ => false end.

(** The toggle the switch of Create and Update picks for a desired and an
    observed flag. *)
Definition expected_toggle (d : ResourceData) (i : InstancePortInterface) : list Call :=
  if PortSecurityDisabled d && PortSecurityEnabled i
  then [CallDisablePortSecurity (PortID d)]
  else if negb (PortSecurityDisabled d) && negb (PortSecurityEnabled i)
  then [CallEnablePortSecurity (PortID d)]
  else [].


(** What the convergence check decides once both of its reads are answered. *)
Definition converged (d : ResourceData) (p : InstancePort)
    (i : InstancePortInterface) : bool :=
  negb (Enforce d
        && negb (bool_decide (SecurityGroupIDs d ⊆ list_to_set (map ID (SecurityGroups p)))))
  && negb (Bool.eqb (PortSecurityEnabled i) (PortSecurityDisabled d)).

(** [names] are the names the cloud listed for [ids]. *)
Definition carries_names_of (C : Type) `{CloudClient C} (ids names : list string) : Prop :=
  exists (c1 : C) sgs c2,
    SecurityGroupListByIDs ids c1 = (inr sgs, c2) /\ names = map Name sgs.

(** [r] is the last request of [t], and [t] has no attach request. *)
Definition aborted_by (r : Request) (t : list Request) : Prop :=
  last t = Some r /\ Forall (fun x => is_attach x = false) t.

(** [t] reads the interface, disables port security, and sends no attach,
    detach or further toggle afterwards. *)
Definition disables_then_skips (d : ResourceData) (t : list Request) : Prop :=
  exists ok rest,
    t = (CallInterfaceByID (InstanceID d) (PortID d), true)
        :: (CallDisablePortSecurity (PortID d), ok) :: rest
    /\ Forall (fun x => is_attach x = false /\ is_detach x = false
                        /\ is_toggle x = false) rest.


(** ** Concrete inputs *)

Definition sgA : SecurityGroup := {| ID := "a"; Name := "A" |}.
Definition sgB : SecurityGroup := {| ID := "b"; Name := "B" |}.
Definition sgC : SecurityGroup := {| ID := "c"; Name := "C" |}.

(** A project with the groups a, b, c and the port p-1 of instance i-1. *)
Definition simCloud (en : bool) (att : list SecurityGroup) : Sim.Cloud :=
  {| Sim.catalog := [sgA; sgB; sgC]; Sim.instance := "i-1"; Sim.port := "p-1";
     Sim.enabled := en; Sim.attached := att |}.

Definition resource (disabled_old disabled enforce_old enforce : bool)
    (sgs_old sgs all : gset string) : ResourceData :=
  {| Id := "p-1"; PortID := "p-1"; InstanceID := "i-1";
     PortSecurityDisabled_old := disabled_old; PortSecurityDisabled := disabled;
     Enforce_old := enforce_old; Enforce := enforce;
     SecurityGroupIDs_old := sgs_old; SecurityGroupIDs := sgs;
     AllSecurityGroupIDs := all |}.

Definition legacyResource (disabled enforce : bool) (sgs : list string)
  : Legacy.ResourceData :=
  {| Legacy.Id := "p-1"; Legacy.PortID := "p-1"; Legacy.InstanceID := "i-1";
     Legacy.PortSecurityDisabled := disabled; Legacy.Enforce := enforce;
     Legacy.SecurityGroupIDs := sgs; Legacy.AllSecurityGroupIDs := [] |}.

Definition fieldName : string := "security_group_ids".

(** ** Proof steps shared by the properties of the callbacks *)

Ltac unfold_go :=
  unfold trace, outcome, run, start,
    resourceInstancePortSecurityCreate, resourceInstancePortSecurityUpdate,
    resourceInstancePortSecurityDelete, resourceInstancePortSecurityRead,
    Legacy.resourceInstancePortSecurityCreate, Legacy.resourceInstancePortSecurityRead,
    Legacy.orErrorf, Legacy.GetOk_list,
    checkPortSecurityChangesIsApplied, togglePortSecurity,
    removeSecurityGroupsFromInstancePort, AssignSecurityGroupsToInstancePort,
    instanceNetworkInterfaceByID, instanceNetworkPortByID, securityGroupListByIDs,
    disablePortSecurity, enablePortSecurity, securityGroupAssign, securityGroupUnAssign,
    initCloudClient, request, orFromErr, bind, ret, throw, getData, setData,
    GetOk_set, GetOk_bool in *.

Ltac red_go :=
  cbn beta iota zeta delta [cloud rd calls fst snd answered app andb orb negb] in *.

(** Case analysis on the answer of the next request, or on the next test. *)
Ltac destruct_op :=
  match goal with
  | |- context [InitCloudClient ?a] =>
      destruct (InitCloudClient a) as [[?|[]] ?] eqn:?
  | |- context [InstanceNetworkInterfaceByID ?a ?b ?c] =>
      destruct (InstanceNetworkInterfaceByID a b c) as [[?|?] ?] eqn:?
  | |- context [InstanceNetworkPortByID ?a ?b ?c] =>
      destruct (InstanceNetworkPortByID a b c) as [[?|?] ?] eqn:?
  | |- context [SecurityGroupListByIDs ?a ?b] =>
      destruct (SecurityGroupListByIDs a b) as [[?|?] ?] eqn:?
  | |- context [DisablePortSecurity ?a ?b] =>
      destruct (DisablePortSecurity a b) as [[?|[]] ?] eqn:?
  | |- context [EnablePortSecurity ?a ?b] =>
      destruct (EnablePortSecurity a b) as [[?|[]] ?] eqn:?
  | |- context [SecurityGroupAssign ?a ?b ?c ?d] =>
      destruct (SecurityGroupAssign a b c d) as [[?|[]] ?] eqn:?
  | |- context [SecurityGroupUnAssign ?a ?b ?c ?d] =>
      destruct (SecurityGroupUnAssign a b c d) as [[?|[]] ?] eqn:?
  | |- context [if ?b then _ else _] => destruct b eqn:?
  end; red_go.

Ltac run_go := unfold_go; red_go; repeat destruct_op.

(** Membership in an explicit trace, request by request. *)
Ltac in_cases H :=
  repeat match type of H with
  | _ ∈ [] => by apply elem_of_nil in H
  | _ ∈ _ :: _ => apply elem_of_cons in H; destruct H as [->|H]
  end.

Ltac in_cases_eq H :=
  repeat match type of H with
  | _ ∈ [] => by apply elem_of_nil in H
  | _ ∈ _ :: _ =>
      apply elem_of_cons in H; destruct H as [H|H]; [try discriminate H|]
  end.

Ltac names_listed :=
  simplify_eq; eexists _, _, _; (split; [eassumption | reflexivity]).

Ltac run_all :=
  unfold Legacy.resourceInstancePortSecurityDelete in *; run_go.

(** Facts read off the tests a run has passed. *)
Ltac bool_facts :=
  repeat match goal with
  | H : _ && _ = true |- _ => apply andb_true_iff in H; destruct H
  | H : negb _ = true |- _ => apply negb_true_iff in H
  | H : negb _ = false |- _ => apply negb_false_iff in H
  | H : (_ =? _)%nat = true |- _ => apply Nat.eqb_eq in H
  | H : (_ =? _)%nat = false |- _ => apply Nat.eqb_neq in H
  end.

(** ** Facts about sets of group IDs *)

Section SetFacts.

Implicit Types X Y : gset string.

(** The difference the check computes first is empty whatever the port holds. *)
Lemma intersection_difference_empty X Y : (X ∩ Y) ∖ Y = ∅.
Proof. set_solver. Qed.

(** Comparing the two sizes tests that every desired group is on the port. *)
Lemma size_intersection_eq X Y : size Y = size (X ∩ Y) <-> Y ⊆ X.
Proof.
  split.
  - intros Hsz.
    assert (X ∩ Y = Y) as Heq by (apply set_subseteq_size_eq; [set_solver | lia]).
    set_solver.
  - intros Hsub. f_equal. set_solver.
Qed.

End SetFacts.

(** ** The convergence check *)

Section CheckFacts.

Context {C : Type} `{client : CloudClient C}.

(** Once both reads are answered the check sends nothing else and decides by
    [converged]. *)
Lemma check_answered (w : World C ResourceData) p c1 i c2 :
  InstanceNetworkPortByID (InstanceID (rd w)) (PortID (rd w)) (cloud w) = (inr p, c1) ->
  InstanceNetworkInterfaceByID (InstanceID (rd w)) (PortID (rd w)) c1 = (inr i, c2) ->
  checkPortSecurityChangesIsApplied w =
    (if converged (rd w) p i then inr tt else inl InstancePortSecNotImplementedErr,
     mkWorld c2 (rd w)
       (calls w ++ [(CallPortByID (InstanceID (rd w)) (PortID (rd w)), true);
                    (CallInterfaceByID (InstanceID (rd w)) (PortID (rd w)), true)])).
Proof.
  intros Hp Hi. unfold_go. red_go. rewrite Hp. red_go. rewrite Hi. red_go.
  rewrite intersection_difference_empty, size_empty, <- app_assoc.
  unfold converged. cbn [Nat.eqb negb app].
  destruct (Enforce (rd w)); cbn [andb negb].
  - destruct (Nat.eqb_spec (size (SecurityGroupIDs (rd w)))
               (size (list_to_set (map ID (SecurityGroups p)) ∩ SecurityGroupIDs (rd w))))
      as [He|He].
    + apply size_intersection_eq in He. rewrite bool_decide_eq_true_2 by done.
      cbn [negb andb]. by destruct (Bool.eqb _ _).
    + rewrite bool_decide_eq_false_2; [done|].
      intros Hs. apply He. by apply size_intersection_eq.
  - by destruct (Bool.eqb _ _).
Qed.

(** A read that fails is handed back as the client's error. *)
Lemma check_port_read_fails (w : World C ResourceData) msg c1 :
  InstanceNetworkPortByID (InstanceID (rd w)) (PortID (rd w)) (cloud w) = (inl msg, c1) ->
  (checkPortSecurityChangesIsApplied w).1 = inl (ApiError msg).
Proof. intros Hp. unfold_go. red_go. by rewrite Hp. Qed.

(** Under enforce, a check that passes has found every desired group on the
    port, and the flag as desired. *)
Lemma check_passed_enforce (w : World C ResourceData) p c1 i c2 w' :
  InstanceNetworkPortByID (InstanceID (rd w)) (PortID (rd w)) (cloud w) = (inr p, c1) ->
  InstanceNetworkInterfaceByID (InstanceID (rd w)) (PortID (rd w)) c1 = (inr i, c2) ->
  Enforce (rd w) = true ->
  checkPortSecurityChangesIsApplied w = (inr tt, w') ->
  SecurityGroupIDs (rd w) ⊆ list_to_set (map ID (SecurityGroups p))
  /\ PortSecurityEnabled i = negb (PortSecurityDisabled (rd w)).
Proof.
  intros Hp Hi Henf. rewrite (check_answered w p c1 i c2 Hp Hi).
  unfold converged. rewrite Henf. cbn [andb].
  case_bool_decide; cbn [negb andb]; [|discriminate].
  destruct (PortSecurityEnabled i), (PortSecurityDisabled (rd w)); cbn; by intros.
Qed.


End CheckFacts.

(** ** The callbacks, whatever the cloud answers *)

Section CallbackFacts.

Context {C : Type} `{client : CloudClient C}.
Variable F : string.

Local Abbreviation Create := (resourceInstancePortSecurityCreate F).
Local Abbreviation Update := (resourceInstancePortSecurityUpdate F).
Local Abbreviation Delete := resourceInstancePortSecurityDelete.
Local Abbreviation LegacyCreate := (Legacy.resourceInstancePortSecurityCreate F).

Lemma validate_passes_enabled d :
  PortSecurityDisabled d = false -> HasError (validatePortSecAttrs F d) = false.
Proof. unfold validatePortSecAttrs, GetOk_bool. by intros ->. Qed.

Lemma validate_passes_no_groups d :
  SecurityGroupIDs d = ∅ -> HasError (validatePortSecAttrs F d) = false.
Proof.
  unfold validatePortSecAttrs, GetOk_bool, GetOk_set. intros ->.
  rewrite size_empty. cbn. by rewrite andb_false_r.
Qed.


(** C3, as the code has it: with enforce off and port security wanted, Update
    schedules for removal the groups dropped from the configuration (old
    desired minus new desired), nothing when none is dropped, and every detach
    request it sends carries the names listed for exactly that set; Create
    sends no detach request. *)
Theorem additive_update_removal_set (c : C) (d : ResourceData) i p names ok :
  Enforce d = false -> PortSecurityDisabled d = false ->
  sgsToRemoveList d = elements (SecurityGroupIDs_old d ∖ SecurityGroupIDs d)
  /\ (SecurityGroupIDs_old d ⊆ SecurityGroupIDs d -> sgsToRemoveList d = [])
  /\ ((CallUnAssign i p names, ok) ∈ trace Update c d ->
      carries_names_of C (elements (SecurityGroupIDs_old d ∖ SecurityGroupIDs d)) names)
  /\ Forall (fun x => is_detach x = false) (trace Create c d).
Proof.
  intros Henf Hdis.
  assert (Hrem : sgsToRemoveList d = elements (SecurityGroupIDs_old d ∖ SecurityGroupIDs d)).
  { unfold sgsToRemoveList. by rewrite Henf. }
  pose proof (validate_passes_enabled d Hdis) as Hval.
  split; [exact Hrem|]. split; [|split].
  - intros Hsub. rewrite Hrem.
    replace (SecurityGroupIDs_old d ∖ SecurityGroupIDs d) with (∅ : gset string)
      by set_solver.
    apply elements_empty.
  - rewrite <- Hrem. unfold carries_names_of. unfold_go. red_go.
    repeat (rewrite ?Hval, ?Hdis; destruct_op); intros Hin; in_cases_eq Hin;
      names_listed.
  - unfold_go. red_go.
    repeat (rewrite ?Hval, ?Hdis, ?Henf; destruct_op); repeat constructor.
Qed.

(** C6, as the code has it: the groups Update schedules for attachment are the
    new desired set minus the old desired set of the Terraform state, and
    Create attaches the whole desired set; what the port holds is not
    consulted.  Every attach request carries the names listed for that set. *)
Theorem attach_set_is_new_minus_old (c : C) (d : ResourceData) i p names ok :
  PortSecurityDisabled d = false ->
  ((CallAssign i p names, ok) ∈ trace Update c d ->
     carries_names_of C (elements (SecurityGroupIDs d ∖ SecurityGroupIDs_old d)) names)
  /\ ((CallAssign i p names, ok) ∈ trace Create c d ->
     carries_names_of C (elements (SecurityGroupIDs d)) names).
Proof.
  intros Hdis. pose proof (validate_passes_enabled d Hdis) as Hval.
  unfold carries_names_of, sgsToAssignList.
  split; unfold_go; red_go;
    repeat (rewrite ?Hval, ?Hdis; destruct_op); intros Hin; in_cases_eq Hin;
    names_listed.
Qed.

(** C4, as the code has it: a lookup of group names that fails is the last
    request of the callback, and the callback has sent no attach request; in
    the earlier Create, which looks up once, it has sent no detach request
    either.  (Update and the current Create look up and detach the groups to
    remove before they look up the groups to add.) *)
Theorem lookup_failure_aborts (c : C) (d : ResourceData) (d' : Legacy.ResourceData)
    (r : Request) :
  is_failed_lookup r = true ->
  (r ∈ trace Update c d -> aborted_by r (trace Update c d))
  /\ (r ∈ trace Create c d -> aborted_by r (trace Create c d))
  /\ (r ∈ trace LegacyCreate c d' ->
      aborted_by r (trace LegacyCreate c d')
      /\ Forall (fun x => is_detach x = false) (trace LegacyCreate c d')).
Proof.
  intros Hf. unfold aborted_by.
  split; [|split]; run_go; intros Hin; in_cases Hin; try discriminate Hf;
    repeat split; repeat constructor.
Qed.

(** C5, as the code has it: when port security is to be disabled, no group ID
    is supplied, and the port is observed with port security on, Create reads
    the interface, sends the disable request, and sends no attach or detach
    request; so does Update when port_security_disabled changes. *)
Theorem disable_skips_group_operations (c : C) (d : ResourceData) c0 i c1 :
  PortSecurityDisabled d = true ->
  SecurityGroupIDs d = ∅ ->
  InitCloudClient c = (inr tt, c0) ->
  InstanceNetworkInterfaceByID (InstanceID d) (PortID d) c0 = (inr i, c1) ->
  PortSecurityEnabled i = true ->
  disables_then_skips d (trace Create c d)
  /\ (PortSecurityDisabled_old d = false -> disables_then_skips d (trace Update c d)).
Proof.
  intros Hdis Hsgs Hinit Hif Hen.
  pose proof (validate_passes_no_groups d Hsgs) as Hval.
  unfold disables_then_skips. split.
  - unfold_go. red_go.
    repeat (progress rewrite ?Hinit, ?Hval, ?Hdis, ?Hif, ?Hen; red_go).
    repeat destruct_op; eexists _, _; (split; [reflexivity | repeat constructor]).
  - intros Hold. unfold_go. unfold HasChange_PortSecurityDisabled. red_go.
    repeat (progress rewrite ?Hinit, ?Hval, ?Hold, ?Hdis, ?Hif, ?Hen;
            cbn [Bool.eqb]; red_go).
    repeat destruct_op; eexists _, _; (split; [reflexivity | repeat constructor]).
Qed.


(** C9: when the old and the new desired state are the same, Update computes
    an empty list to attach and (the recorded groups being among the desired
    ones under enforce) an empty list to detach, and sends no attach, detach
    or toggle request. *)
Theorem update_same_state_sends_no_mutation (c : C) (d : ResourceData) :
  PortSecurityDisabled_old d = PortSecurityDisabled d ->
  Enforce_old d = Enforce d ->
  SecurityGroupIDs_old d = SecurityGroupIDs d ->
  sgsToAssignList d = []
  /\ ((Enforce d = true -> AllSecurityGroupIDs d ⊆ SecurityGroupIDs d) ->
      sgsToRemoveList d = [])
  /\ Forall (fun x => is_attach x = false /\ is_detach x = false /\ is_toggle x = false)
       (trace Update c d).
Proof.
  intros Hd He Hs. split; [|split].
  - unfold sgsToAssignList. rewrite Hs, difference_diag_L. apply elements_empty.
  - intros Hall. unfold sgsToRemoveList. destruct (Enforce d).
    + replace (AllSecurityGroupIDs d ∖ SecurityGroupIDs d) with (∅ : gset string)
        by (specialize (Hall eq_refl); set_solver).
      apply elements_empty.
    + rewrite Hs, difference_diag_L. apply elements_empty.
  - unfold_go. red_go.
    unfold HasChange_PortSecurityDisabled, HasChange_Enforce, HasChange_SecurityGroupIDs.
    repeat (destruct_op;
            rewrite ?Hd, ?He, ?Hs, ?Bool.eqb_reflx, ?bool_decide_eq_true_2 by done;
            red_go);
    repeat constructor.
Qed.

(** C10: when Delete observes port security off, it sends the
    EnablePortSecurity request and nothing after it (no detach request), and
    returns without diagnostics once that request is answered. *)
Theorem delete_reenables (c : C) (d : ResourceData) c0 i c1 :
  InitCloudClient c = (inr tt, c0) ->
  InstanceNetworkInterfaceByID (InstanceID d) (PortID d) c0 = (inr i, c1) ->
  PortSecurityEnabled i = false ->
  exists ok,
    trace Delete c d =
      [(CallInterfaceByID (InstanceID d) (PortID d), true);
       (CallEnablePortSecurity (PortID d), ok)]
    /\ (ok = true -> outcome Delete c d = []).
Proof.
  intros Hinit Hif Hen. unfold_go. red_go.
  rewrite Hinit. red_go. rewrite Hif. red_go. rewrite Hen. red_go.
  destruct (EnablePortSecurity (PortID d) c1) as [[msg|[]] c2]; red_go.
  - exists false. by split.
  - exists true. by split.
Qed.

End CallbackFacts.

(** ** Runs on the synchronous cloud *)

Section Runs.

Local Abbreviation Create := (resourceInstancePortSecurityCreate (C:=Sim.Cloud) fieldName).
Local Abbreviation Update := (resourceInstancePortSecurityUpdate (C:=Sim.Cloud) fieldName).
Local Abbreviation Delete := (resourceInstancePortSecurityDelete (C:=Sim.Cloud)).

(** C2: the port holds a and b, the desired set is a, enforce is set and the
    flag is as desired: b should have been removed and is still attached, yet
    the check returns nil. *)
Theorem check_passes_with_extra_group :
  let w := start (simCloud true [sgA; sgB])
                 (resource false false true true {["a"]} {["a"]} {["a"; "b"]}) in
  Sim.observed (cloud w) ∖ SecurityGroupIDs (rd w) = {["b"]}
  /\ (checkPortSecurityChangesIsApplied w).1 = inr tt.
Proof. split; vm_compute; reflexivity. Qed.

(** C1: enforce is set, the desired set goes from a to a, c, and the port
    holds a and b while the state recorded a only.  Update detaches nothing,
    attaches c, the check passes and Update returns without diagnostics; the
    port then holds a, b and c, not the desired a and c. *)
Theorem update_enforce_leaves_extra_group :
  let d := resource false false true true {["a"]} {["a"; "c"]} {["a"]} in
  let r := run Update (start (simCloud true [sgA; sgB]) d) in
  r.1 = []
  /\ Sim.observed (cloud r.2) = {["a"; "b"; "c"]}
  /\ Sim.observed (cloud r.2) ∖ SecurityGroupIDs d = {["b"]}.
Proof. repeat split; vm_compute; reflexivity. Qed.

(** C3 does not hold as stated: enforce is off, the desired set goes from
    a, b to b, and the port holds a and b.  Update schedules a for removal and
    detaches it; the port ends with b only, which does not include the groups
    it held before. *)
Lemma update_additive_detaches_dropped_group :
  let d := resource false false false false {["a"; "b"]} {["b"]} {["a"; "b"]} in
  let c := simCloud true [sgA; sgB] in
  let r := run Update (start c d) in
  sgsToRemoveList d = ["a"]
  /\ calls r.2 =
       [(CallListByIDs ["a"], true); (CallUnAssign "i-1" "p-1" ["A"], true);
        (CallListByIDs [], true); (CallAssign "i-1" "p-1" [], true);
        (CallPortByID "i-1" "p-1", true); (CallInterfaceByID "i-1" "p-1", true);
        (CallInterfaceByID "i-1" "p-1", true); (CallPortByID "i-1" "p-1", true)]
  /\ r.1 = []
  /\ Sim.observed (cloud r.2) = {["b"]}
  /\ (Sim.observed c ∪ SecurityGroupIDs d) ∖ Sim.observed (cloud r.2) = {["a"]}.
Proof. repeat split; vm_compute; reflexivity. Qed.

Lemma additive_update_removal_set_witness :
  let d := resource false false false false {["a"; "b"]} {["b"]} {["a"; "b"]} in
  carries_names_of Sim.Cloud
    (elements (SecurityGroupIDs_old d ∖ SecurityGroupIDs d)) ["A"].
Proof.
  intros d.
  refine (proj1 (proj2 (proj2
    (additive_update_removal_set fieldName (simCloud true [sgA; sgB]) d
       "i-1" "p-1" ["A"] true eq_refl eq_refl))) _).
  vm_compute. repeat constructor.
Defined.

(** C4 does not hold as stated: enforce is off, the desired set goes from a
    to the unknown ghost, and the port holds a.  Update detaches a, then the
    lookup of ghost fails and Update returns the error: the port is left with
    no group. *)
Lemma update_detaches_before_failed_lookup :
  let d := resource false false false false {["a"]} {["ghost"]} {["a"]} in
  let r := run Update (start (simCloud true [sgA]) d) in
  calls r.2 =
    [(CallListByIDs ["a"], true); (CallUnAssign "i-1" "p-1" ["A"], true);
     (CallListByIDs ["ghost"], false)]
  /\ HasError r.1 = true
  /\ Sim.observed (cloud r.2) = ∅.
Proof. repeat split; vm_compute; reflexivity. Qed.

Lemma lookup_failure_aborts_witness :
  let d := resource false false false false {["a"]} {["ghost"]} {["a"]} in
  aborted_by (CallListByIDs ["ghost"], false) (trace Update (simCloud true [sgA]) d).
Proof.
  intros d.
  refine (proj1
    (lookup_failure_aborts fieldName (simCloud true [sgA]) d
       (legacyResource false false ["ghost"])
       (CallListByIDs ["ghost"], false) eq_refl) _).
  vm_compute. repeat constructor.
Defined.

(** C5 does not hold as stated.  First input: port security is to be disabled
    and a group ID is supplied, on a port with port security on; Create
    returns the validation error and sends nothing, so no disable request.
    Second input: port_security_disabled is set in the state and in the plan
    alike, no group is supplied, and the port has port security on; Update
    only reads, and port security stays on. *)
Lemma create_disabled_with_groups_sends_nothing :
  let c := simCloud true [sgA] in
  let r1 := run Create (start c (resource false true false false ∅ {["a"]} ∅)) in
  let r2 := run Update (start c (resource true true false false ∅ ∅ ∅)) in
  (calls r1.2 = [] /\ HasError r1.1 = true /\ Sim.enabled (cloud r1.2) = true)
  /\ (calls r2.2 =
        [(CallInterfaceByID "i-1" "p-1", true); (CallPortByID "i-1" "p-1", true)]
      /\ r2.1 = [] /\ Sim.enabled (cloud r2.2) = true).
Proof. repeat split; vm_compute; reflexivity. Qed.

Lemma disable_skips_group_operations_witness :
  let d := resource false true false false ∅ ∅ ∅ in
  disables_then_skips d (trace Create (simCloud true [sgA]) d).
Proof.
  intros d.
  exact (proj1
    (disable_skips_group_operations fieldName (simCloud true [sgA]) d
       (simCloud true [sgA]) {| PortSecurityEnabled := true |} (simCloud true [sgA])
       eq_refl eq_refl eq_refl eq_refl eq_refl)).
Defined.

(** C6 does not hold as stated: the desired set goes from a to a, c while the
    port holds no group.  Desired minus current is a, c, but Update schedules
    c alone, attaches c alone, and the port ends with c. *)
Lemma update_attaches_new_minus_old :
  let d := resource false false false false {["a"]} {["a"; "c"]} {["a"]} in
  let c := simCloud true [] in
  let r := run Update (start c d) in
  SecurityGroupIDs d ∖ Sim.observed c = {["a"; "c"]}
  /\ sgsToAssignList d = ["c"]
  /\ List.filter is_attach (calls r.2) = [(CallAssign "i-1" "p-1" ["C"], true)]
  /\ r.1 = []
  /\ Sim.observed (cloud r.2) = {["c"]}.
Proof. repeat split; vm_compute; reflexivity. Qed.

Lemma attach_set_is_new_minus_old_witness :
  let d := resource false false false false {["a"]} {["a"; "c"]} {["a"]} in
  carries_names_of Sim.Cloud
    (elements (SecurityGroupIDs d ∖ SecurityGroupIDs_old d)) ["C"].
Proof.
  intros d.
  refine (proj1
    (attach_set_is_new_minus_old fieldName (simCloud true []) d
       "i-1" "p-1" ["C"] true eq_refl) _).
  vm_compute. repeat constructor.
Defined.



Lemma update_same_state_sends_no_mutation_witness :
  let d := resource false false true true {["a"]} {["a"]} {["a"]} in
  sgsToAssignList d = []
  /\ ((Enforce d = true -> AllSecurityGroupIDs d ⊆ SecurityGroupIDs d) ->
      sgsToRemoveList d = [])
  /\ Forall (fun x => is_attach x = false /\ is_detach x = false /\ is_toggle x = false)
       (trace Update (simCloud true [sgA]) d).
Proof.
  intros d.
  exact (update_same_state_sends_no_mutation fieldName (simCloud true [sgA]) d
           eq_refl eq_refl eq_refl).
Defined.

Lemma delete_reenables_witness :
  let d := resource true true false false {["a"]} {["a"]} {["a"]} in
  exists ok,
    trace Delete (simCloud false [sgA]) d =
      [(CallInterfaceByID "i-1" "p-1", true); (CallEnablePortSecurity "p-1", ok)]
    /\ (ok = true -> outcome Delete (simCloud false [sgA]) d = []).
Proof.
  intros d.
  exact (delete_reenables (simCloud false [sgA]) d
           (simCloud false [sgA]) {| PortSecurityEnabled := false |}
           (simCloud false [sgA]) eq_refl eq_refl eq_refl).
Defined.

End Runs.

(** ** Further properties of the check and of validation *)

Section CheckMore.

Context {C : Type} `{client : CloudClient C}.
Variable F : string.

(** X13: with enforce off the check does not look at the groups: once both
    reads are answered its result depends on the port-security flag alone, so
    a desired group missing from the port is not reported. *)
Theorem check_without_enforce_ignores_groups (w : World C ResourceData) p c1 i c2 :
  Enforce (rd w) = false ->
  InstanceNetworkPortByID (InstanceID (rd w)) (PortID (rd w)) (cloud w) = (inr p, c1) ->
  InstanceNetworkInterfaceByID (InstanceID (rd w)) (PortID (rd w)) c1 = (inr i, c2) ->
  (checkPortSecurityChangesIsApplied w).1 =
    if Bool.eqb (PortSecurityEnabled i) (PortSecurityDisabled (rd w))
    then inl InstancePortSecNotImplementedErr else inr tt.
Proof.
  intros Henf Hp Hi. rewrite (check_answered w p c1 i c2 Hp Hi). cbn [fst].
  unfold converged. rewrite Henf. cbn [andb negb]. by destruct (Bool.eqb _ _).
Qed.

(** X14: the check never writes to the resource data; a failing port read
    ends it after that one request with the client's error, and a failing
    interface read is returned as the client's error too, not as the
    sentinel. *)
Theorem check_returns_read_errors (w : World C ResourceData) :
  rd (checkPortSecurityChangesIsApplied w).2 = rd w
  /\ (forall msg c1,
        InstanceNetworkPortByID (InstanceID (rd w)) (PortID (rd w)) (cloud w)
          = (inl msg, c1) ->
        checkPortSecurityChangesIsApplied w =
          (inl (ApiError msg),
           mkWorld c1 (rd w)
             (calls w ++ [(CallPortByID (InstanceID (rd w)) (PortID (rd w)), false)])))
  /\ (forall p c1 msg c2,
        InstanceNetworkPortByID (InstanceID (rd w)) (PortID (rd w)) (cloud w)
          = (inr p, c1) ->
        InstanceNetworkInterfaceByID (InstanceID (rd w)) (PortID (rd w)) c1
          = (inl msg, c2) ->
        (checkPortSecurityChangesIsApplied w).1 = inl (ApiError msg)).
Proof.
  split; [|split].
  - run_go; reflexivity.
  - intros msg c1 Hp. unfold_go. red_go. by rewrite Hp.
  - intros p c1 msg c2 Hp Hi. unfold_go. red_go. rewrite Hp. red_go. by rewrite Hi.
Qed.

(** X15: validation reports an error exactly when port_security_disabled is
    set and the group set is not empty; in every other case it returns no
    diagnostic at all. *)
Theorem validation_rejects_exactly (d : ResourceData) :
  (HasError (validatePortSecAttrs F d) = true <->
   PortSecurityDisabled d = true /\ SecurityGroupIDs d ≠ ∅)
  /\ (HasError (validatePortSecAttrs F d) = false -> validatePortSecAttrs F d = []).
Proof.
  unfold validatePortSecAttrs, GetOk_bool, GetOk_set. cbn [snd].
  destruct (PortSecurityDisabled d); cbn [andb].
  - destruct (Nat.eqb_spec (size (SecurityGroupIDs d)) 0) as [Hz|Hz]; cbn.
    + apply size_empty_inv in Hz. apply leibniz_equiv in Hz.
      split; [|done]. split; [done|]. by intros [_ []].
    + split; [|done]. split; [|done]. intros _. split; [done|].
      intros Hs. apply Hz. by rewrite Hs, size_empty.
  - split; [|done]. split; [done|]. by intros [? _].
Qed.

End CheckMore.

(** ** Further properties of the callbacks *)

Section CallbackMore.

Context {C : Type} `{client : CloudClient C}.
Variable F : string.

Local Abbreviation Create := (resourceInstancePortSecurityCreate (C:=C) F).
Local Abbreviation Read := (resourceInstancePortSecurityRead (C:=C)).
Local Abbreviation Update := (resourceInstancePortSecurityUpdate (C:=C) F).
Local Abbreviation Delete := (resourceInstancePortSecurityDelete (C:=C)).
Local Abbreviation LegacyCreate := (Legacy.resourceInstancePortSecurityCreate (C:=C) F).
Local Abbreviation LegacyDelete := (Legacy.resourceInstancePortSecurityDelete (C:=C)).

Lemma size_nonzero_nonempty (X : gset string) : size X ≠ 0 -> X ≠ ∅.
Proof. intros Hsz ->. by rewrite size_empty in Hsz. Qed.

(** X1: when the client is built and both reads are answered, Read returns no
    diagnostics, stores the negated port-security flag, and stores the IDs
    of the port's groups in all_security_group_ids only if port security is
    on (otherwise the recorded set is kept); the desired set, enforce and the
    ID are left as they were. *)
Theorem read_refreshes (c : C) (d : ResourceData) c0 i c1 p c2 :
  InitCloudClient c = (inr tt, c0) ->
  InstanceNetworkInterfaceByID (InstanceID d) (PortID d) c0 = (inr i, c1) ->
  InstanceNetworkPortByID (InstanceID d) (PortID d) c1 = (inr p, c2) ->
  let d' := rd (run Read (start c d)).2 in
  outcome Read c d = []
  /\ PortSecurityDisabled d' = negb (PortSecurityEnabled i)
  /\ AllSecurityGroupIDs d' =
       (if PortSecurityEnabled i then list_to_set (map ID (SecurityGroups p))
        else AllSecurityGroupIDs d)
  /\ SecurityGroupIDs d' = SecurityGroupIDs d
  /\ Enforce d' = Enforce d
  /\ Id d' = Id d.
Proof.
  intros Hinit Hif Hp. unfold_go. red_go.
  rewrite Hinit. red_go. rewrite Hif. red_go. rewrite Hp. red_go.
  destruct (PortSecurityEnabled i); red_go; repeat split.
Qed.

(** X2: Read sends at most two requests, both of them reads, and when it
    returns an error the resource data is exactly what it was. *)
Theorem read_only_reads (c : C) (d : ResourceData) :
  Forall (fun x => is_read x = true) (trace Read c d)
  /\ length (trace Read c d) <= 2
  /\ (HasError (outcome Read c d) = true -> rd (run Read (start c d)).2 = d).
Proof.
  split; [|split].
  - run_go; repeat constructor.
  - run_go; cbn [length]; lia.
  - run_go; first [reflexivity | intros; discriminate].
Qed.

(** X3: Create sends a detach request only under enforce with a nonempty
    desired set and port security wanted, after a port read that returned at
    least one group; the request carries the names listed for all the groups
    that read returned. *)
Theorem create_detaches_what_port_holds (c : C) (d : ResourceData) i p names ok :
  (CallUnAssign i p names, ok) ∈ trace Create c d ->
  Enforce d = true /\ SecurityGroupIDs d ≠ ∅ /\ PortSecurityDisabled d = false
  /\ exists c1 port c2,
       InstanceNetworkPortByID (InstanceID d) (PortID d) c1 = (inr port, c2)
       /\ SecurityGroups port ≠ []
       /\ carries_names_of C (map ID (SecurityGroups port)) names.
Proof.
  unfold carries_names_of.
  run_go; intros Hin; in_cases_eq Hin; simplify_eq; bool_facts;
    match goal with
    | Hp : InstanceNetworkPortByID _ _ _ = (inr ?port, _),
      Hl : length (SecurityGroups ?port) ≠ 0,
      Hs : SecurityGroupListByIDs (map ID (SecurityGroups ?port)) _ = (inr _, _) |- _ =>
        split; [done|]; split; [by apply size_nonzero_nonempty|]; split; [done|];
        eexists _, port, _; split; [exact Hp|];
        split; [by intros Hnil; rewrite Hnil in Hl|];
        eexists _, _, _; split; [exact Hs | reflexivity]
    end.
Qed.

(** X4: with an empty desired set Create sends no lookup, attach or detach
    request, also under enforce: the groups on the port are left alone. *)
Theorem create_without_groups (c : C) (d : ResourceData) :
  SecurityGroupIDs d = ∅ ->
  Forall (fun x => is_lookup x = false /\ is_attach x = false /\ is_detach x = false)
    (trace Create c d).
Proof.
  intros Hs. unfold_go. red_go.
  repeat (rewrite ?Hs, ?size_empty, ?andb_false_r; cbn [Nat.eqb]; red_go; destruct_op);
    repeat constructor.
Qed.

(** X5: with port_security_disabled set, Create and Update send no lookup,
    attach or detach request, whatever the port's state and whatever else the
    desired state says. *)
Theorem disabled_sends_no_group_request (c : C) (d : ResourceData) :
  PortSecurityDisabled d = true ->
  Forall (fun x => is_lookup x = false /\ is_attach x = false /\ is_detach x = false)
    (trace Create c d)
  /\ Forall (fun x => is_lookup x = false /\ is_attach x = false /\ is_detach x = false)
    (trace Update c d).
Proof.
  intros Hd. split; unfold_go; red_go;
    repeat (rewrite ?Hd; destruct_op); repeat constructor.
Qed.

(** X6: once validation passes and the interface read is answered, the
    toggle requests of Create are exactly those of the switch: a disable when
    disabling is wanted and port security is on, an enable when it is wanted
    on and is off, none when the flag is already as wanted. *)
Theorem create_toggle (c : C) (d : ResourceData) c0 i c1 :
  HasError (validatePortSecAttrs F d) = false ->
  InitCloudClient c = (inr tt, c0) ->
  InstanceNetworkInterfaceByID (InstanceID d) (PortID d) c0 = (inr i, c1) ->
  map fst (List.filter is_toggle (trace Create c d)) = expected_toggle d i.
Proof.
  intros Hval Hinit Hif. unfold expected_toggle. unfold_go. red_go.
  repeat (progress rewrite ?Hinit, ?Hval, ?Hif; red_go).
  repeat destruct_op; reflexivity.
Qed.

(** X7: Update sends the toggle of the switch only when
    port_security_disabled differs between state and plan; when it does not
    differ Update sends no toggle, whatever the port's flag is. *)
Theorem update_toggle (c : C) (d : ResourceData) c0 i c1 :
  HasError (validatePortSecAttrs F d) = false ->
  InitCloudClient c = (inr tt, c0) ->
  InstanceNetworkInterfaceByID (InstanceID d) (PortID d) c0 = (inr i, c1) ->
  map fst (List.filter is_toggle (trace Update c d)) =
    if HasChange_PortSecurityDisabled d then expected_toggle d i else [].
Proof.
  intros Hval Hinit Hif. unfold expected_toggle. unfold_go. red_go.
  repeat (progress rewrite ?Hinit, ?Hval; red_go).
  destruct (HasChange_PortSecurityDisabled d); red_go.
  - rewrite Hif. red_go. repeat destruct_op; reflexivity.
  - repeat destruct_op; reflexivity.
Qed.

(** X8: an Update that returns an error leaves the resource data untouched; a
    Create that returns an error leaves it untouched or with the ID set and
    nothing else changed; Delete never changes the resource data (it does not
    clear the ID). *)
Theorem failure_leaves_data (c : C) (d : ResourceData) :
  (HasError (outcome Update c d) = true -> rd (run Update (start c d)).2 = d)
  /\ (HasError (outcome Create c d) = true ->
      rd (run Create (start c d)).2 = d
      \/ rd (run Create (start c d)).2 = SetId (PortID d) d)
  /\ rd (run Delete (start c d)).2 = d.
Proof.
  split; [|split]; run_go;
    first [reflexivity | by left | by right | intros; discriminate].
Qed.


(** X17: under enforce with port security wanted, every detach request of
    Update carries the names listed for the recorded all_security_group_ids
    minus the desired set; the groups the port holds at that moment are not
    read for it. *)
Theorem update_enforce_removal_set (c : C) (d : ResourceData) i p names ok :
  Enforce d = true -> PortSecurityDisabled d = false ->
  (CallUnAssign i p names, ok) ∈ trace Update c d ->
  carries_names_of C (elements (AllSecurityGroupIDs d ∖ SecurityGroupIDs d)) names.
Proof.
  intros Henf Hdis.
  assert (Hrem : sgsToRemoveList d = elements (AllSecurityGroupIDs d ∖ SecurityGroupIDs d)).
  { unfold sgsToRemoveList. by rewrite Henf. }
  pose proof (validate_passes_enabled F d Hdis) as Hval.
  rewrite <- Hrem. unfold carries_names_of. unfold_go. red_go.
  repeat (rewrite ?Hval, ?Hdis; destruct_op); intros Hin; in_cases_eq Hin;
    names_listed.
Qed.

(** X10: Delete sends no attach and no disable request; a detach request is
    sent only for a nonempty configured set and carries the names listed for
    exactly the configured groups, so groups attached by other means stay. *)
Theorem delete_detaches_configured (c : C) (d : ResourceData) i p names ok :
  Forall (fun x => is_attach x = false
                   /\ x.1 ≠ CallDisablePortSecurity (PortID d)) (trace Delete c d)
  /\ ((CallUnAssign i p names, ok) ∈ trace Delete c d ->
      SecurityGroupIDs d ≠ ∅
      /\ carries_names_of C (elements (SecurityGroupIDs d)) names).
Proof.
  split.
  - run_go; repeat constructor; discriminate.
  - unfold carries_names_of. run_go; intros Hin; in_cases_eq Hin; simplify_eq; bool_facts;
      (split; [by apply size_nonzero_nonempty|]);
      eexists _, _, _; (split; [eassumption | reflexivity]).
Qed.

(** X11: the list-based Delete looks groups up only for a nonempty configured
    list, and the list of IDs it asks for is the configured list preceded by
    as many empty strings as it has entries: the lookup always asks for the
    empty ID. *)
Theorem legacy_delete_pads_lookup (c : C) (d : Legacy.ResourceData) ids ok :
  (CallListByIDs ids, ok) ∈ trace LegacyDelete c d ->
  Legacy.SecurityGroupIDs d ≠ []
  /\ ids = (replicate (length (Legacy.SecurityGroupIDs d)) EmptyString
            ++ Legacy.SecurityGroupIDs d)%list
  /\ EmptyString ∈ ids.
Proof.
  run_all; intros Hin; in_cases_eq Hin; simplify_eq; bool_facts;
    (destruct (Legacy.SecurityGroupIDs d) as [|? ?]; [done|]);
    (split; [done|]); (split; [reflexivity|]); cbn; left.
Qed.

(** X12: the list-based Create never sends a detach request, and its attach
    request carries the names listed for the configured list preceded, when
    enforce is off, by the IDs of the groups a port read returned (under
    enforce by nothing). *)
Theorem legacy_create_attach_list (c : C) (d : Legacy.ResourceData) i p names ok :
  Forall (fun x => is_detach x = false) (trace LegacyCreate c d)
  /\ ((CallAssign i p names, ok) ∈ trace LegacyCreate c d ->
      exists pre,
        carries_names_of C (pre ++ Legacy.SecurityGroupIDs d)%list names
        /\ (Legacy.Enforce d = true -> pre = [])
        /\ (Legacy.Enforce d = false ->
            exists c1 port c2,
              InstanceNetworkPortByID (Legacy.InstanceID d) (Legacy.PortID d) c1
                = (inr port, c2)
              /\ pre = map ID (SecurityGroups port))).
Proof.
  split.
  - run_go; repeat constructor.
  - unfold carries_names_of. run_go; intros Hin; in_cases_eq Hin; simplify_eq; bool_facts.
    all: try match goal with
      | H : length ?l = 0 |- _ => apply length_zero_iff_nil in H; rewrite H in *
      end.
    all: match goal with
      | He : Legacy.Enforce _ = false,
        Hs : SecurityGroupListByIDs ?ids _ = (inr _, _) |- _ =>
          match ids with
          | context [SecurityGroups ?port] =>
              match goal with
              | Hp : InstanceNetworkPortByID _ _ _ = (inr port, _) |- _ =>
                  exists (map ID (SecurityGroups port)); rewrite ?app_nil_r;
                  split; [eexists _, _, _; split; [exact Hs | reflexivity]|];
                  split; [congruence|];
                  intros _; eexists _, port, _; split; [exact Hp | reflexivity]
              end
          end
      | He : Legacy.Enforce _ = true,
        Hs : SecurityGroupListByIDs _ _ = (inr _, _) |- _ =>
          exists []; cbn [app];
          split; [eexists _, _, _; split; [exact Hs | reflexivity]|];
          split; [done | congruence]
      end.
Qed.

End CallbackMore.

(** ** The storage name check *)

Section StorageName.

Import Regexp.

Lemma matches_Empty s : matches Empty s = false.
Proof. induction s; [done|]. exact IHs. Qed.

Lemma matches_Alt r1 r2 s : matches (Alt r1 r2) s = matches r1 s || matches r2 s.
Proof. revert r1 r2. induction s as [|a s IH]; intros r1 r2; [done|]. cbn. apply IH. Qed.

Lemma matches_Cat_Empty r s : matches (Cat Empty r) s = false.
Proof. induction s as [|a s IH]; [done|]. exact IH. Qed.

Lemma matches_Cat_Eps r s : matches (Cat Eps r) s = matches r s.
Proof.
  destruct s as [|a s]; [done|]. cbn.
  by rewrite matches_Alt, matches_Cat_Empty.
Qed.

Lemma matches_Star_Class f s :
  matches (Star (Class f)) s = forallb f (String.list_ascii_of_string s).
Proof.
  induction s as [|a s IH]; [done|]. cbn.
  destruct (f a); cbn.
  - by rewrite matches_Cat_Eps.
  - apply matches_Cat_Empty.
Qed.

Lemma matches_Plus_Class f s :
  matches (Plus (Class f)) s =
    match s with
    | EmptyString => false
    | String _ _ => forallb f (String.list_ascii_of_string s)
    end.
Proof.
  destruct s as [|a s]; [done|]. cbn.
  destruct (f a); cbn.
  - by rewrite matches_Cat_Eps, matches_Star_Class.
  - apply matches_Cat_Empty.
Qed.

(** X16: a storage name passes the check exactly when it is not empty, every
    byte of it is an ASCII letter, a digit, an underscore or a dash, and it
    has at most 255 bytes; any other name gets an error diagnostic. *)
Theorem storage_name_accepted (s : string) :
  (validateStorageName s = [] <->
   s ≠ EmptyString
   /\ forallb is_name_char (String.list_ascii_of_string s) = true
   /\ String.length s <= 255)
  /\ (validateStorageName s = [] \/ HasError (validateStorageName s) = true).
Proof.
  unfold validateStorageName, storageNamePattern. rewrite matches_Plus_Class.
  destruct (Nat.ltb_spec 255 (String.length s)) as [Hlen|Hlen].
  - rewrite orb_true_r. split; [|by right]. split; [done|]. intros (_ & _ & ?). lia.
  - rewrite orb_false_r. destruct s as [|a s]; cbn [negb].
    + split; [|by right]. split; [done|]. by intros [? _].
    + destruct (forallb is_name_char (String.list_ascii_of_string (String a s))) eqn:Hall;
        cbn [negb].
      * split; [|by left]. split; [|done]. intros _. by repeat split.
      * split; [|by right]. split; [done|]. by intros (_ & ? & _).
Qed.

End StorageName.

(** ** Runs of the further properties on the synchronous cloud *)

Section MoreRuns.

Local Abbreviation Create := (resourceInstancePortSecurityCreate (C:=Sim.Cloud) fieldName).
Local Abbreviation Read := (resourceInstancePortSecurityRead (C:=Sim.Cloud)).
Local Abbreviation Update := (resourceInstancePortSecurityUpdate (C:=Sim.Cloud) fieldName).
Local Abbreviation Delete := (resourceInstancePortSecurityDelete (C:=Sim.Cloud)).
Local Abbreviation LegacyCreate :=
  (Legacy.resourceInstancePortSecurityCreate (C:=Sim.Cloud) fieldName).
Local Abbreviation LegacyDelete := (Legacy.resourceInstancePortSecurityDelete (C:=Sim.Cloud)).

Lemma check_without_enforce_ignores_groups_witness :
  let w := start (simCloud true [])
                 (resource false false false false {["a"]} {["a"]} {["a"]}) in
  (checkPortSecurityChangesIsApplied w).1 = inr tt.
Proof.
  intros w.
  exact (check_without_enforce_ignores_groups w {| SecurityGroups := [] |}
           (simCloud true []) {| PortSecurityEnabled := true |} (simCloud true [])
           eq_refl eq_refl eq_refl).
Defined.

Lemma read_refreshes_witness :
  let c := simCloud true [sgA; sgB] in
  let d := resource false false false false {["a"]} {["a"]} ∅ in
  AllSecurityGroupIDs (rd (run Read (start c d)).2) = list_to_set (map ID [sgA; sgB])
  /\ SecurityGroupIDs (rd (run Read (start c d)).2) = SecurityGroupIDs d.
Proof.
  intros c d.
  pose proof (read_refreshes c d c {| PortSecurityEnabled := true |} c
                {| SecurityGroups := [sgA; sgB] |} c eq_refl eq_refl eq_refl)
    as (_ & _ & Hall & Hsgs & _).
  exact (conj Hall Hsgs).
Defined.

Lemma create_detaches_what_port_holds_witness :
  let c := simCloud true [sgA] in
  let d := resource false false false true ∅ {["c"]} ∅ in
  exists c1 port c2,
    InstanceNetworkPortByID (InstanceID d) (PortID d) c1 = (inr port, c2)
    /\ SecurityGroups port ≠ []
    /\ carries_names_of Sim.Cloud (map ID (SecurityGroups port)) ["A"].
Proof.
  intros c d.
  refine (proj2 (proj2 (proj2
    (create_detaches_what_port_holds fieldName c d "i-1" "p-1" ["A"] true _)))).
  vm_compute. repeat constructor.
Defined.

Lemma create_without_groups_witness :
  let d := resource false false false true ∅ ∅ ∅ in
  Forall (fun x => is_lookup x = false /\ is_attach x = false /\ is_detach x = false)
    (trace Create (simCloud true [sgA]) d).
Proof.
  intros d. exact (create_without_groups fieldName (simCloud true [sgA]) d eq_refl).
Defined.

Lemma disabled_sends_no_group_request_witness :
  let d := resource false true false true ∅ ∅ {["a"]} in
  Forall (fun x => is_lookup x = false /\ is_attach x = false /\ is_detach x = false)
    (trace Update (simCloud true [sgA]) d).
Proof.
  intros d.
  exact (proj2 (disabled_sends_no_group_request fieldName (simCloud true [sgA]) d eq_refl)).
Defined.

Lemma create_toggle_witness :
  let c := simCloud false [] in
  let d := resource false false false false ∅ {["a"]} ∅ in
  map fst (List.filter is_toggle (trace Create c d)) = [CallEnablePortSecurity "p-1"].
Proof.
  intros c d.
  exact (create_toggle fieldName c d c {| PortSecurityEnabled := false |} c
           eq_refl eq_refl eq_refl).
Defined.

Lemma update_toggle_witness :
  let c := simCloud true [] in
  let d := resource true true false false ∅ ∅ ∅ in
  map fst (List.filter is_toggle (trace Update c d)) = [].
Proof.
  intros c d.
  exact (update_toggle fieldName c d c {| PortSecurityEnabled := true |} c
           eq_refl eq_refl eq_refl).
Defined.


Lemma update_enforce_removal_set_witness :
  let c := simCloud true [sgA; sgB] in
  let d := resource false false false true {["a"]} {["a"]} {["a"; "b"]} in
  carries_names_of Sim.Cloud
    (elements (AllSecurityGroupIDs d ∖ SecurityGroupIDs d)) ["B"].
Proof.
  intros c d.
  refine (update_enforce_removal_set fieldName c d "i-1" "p-1" ["B"] true
            eq_refl eq_refl _).
  vm_compute. repeat constructor.
Defined.

Lemma delete_detaches_configured_witness :
  let c := simCloud true [sgA; sgB] in
  let d := resource false false false true {["a"]} {["a"]} ∅ in
  SecurityGroupIDs d ≠ ∅
  /\ carries_names_of Sim.Cloud (elements (SecurityGroupIDs d)) ["A"].
Proof.
  intros c d.
  refine (proj2 (delete_detaches_configured c d "i-1" "p-1" ["A"] true) _).
  vm_compute. repeat constructor.
Defined.

Lemma legacy_delete_pads_lookup_witness :
  let d := legacyResource false false ["a"] in
  Legacy.SecurityGroupIDs d ≠ []
  /\ [EmptyString; "a"] =
       (replicate (length (Legacy.SecurityGroupIDs d)) EmptyString
        ++ Legacy.SecurityGroupIDs d)%list
  /\ EmptyString ∈ [EmptyString; "a"].
Proof.
  intros d.
  refine (legacy_delete_pads_lookup (simCloud true [sgA]) d [EmptyString; "a"] false _).
  vm_compute. repeat constructor.
Defined.

Lemma legacy_create_attach_list_witness :
  let c := simCloud true [sgA] in
  let d := legacyResource false false ["c"] in
  exists pre,
    carries_names_of Sim.Cloud (pre ++ Legacy.SecurityGroupIDs d)%list ["A"; "C"]
    /\ (Legacy.Enforce d = true -> pre = [])
    /\ (Legacy.Enforce d = false ->
        exists c1 port c2,
          InstanceNetworkPortByID (Legacy.InstanceID d) (Legacy.PortID d) c1
            = (inr port, c2)
          /\ pre = map ID (SecurityGroups port)).
Proof.
  intros c d.
  refine (proj2 (legacy_create_attach_list fieldName c d "i-1" "p-1" ["A"; "C"] true) _).
  vm_compute. repeat constructor.
Defined.

End MoreRuns.
